(** * agent-watch: the SQLite text-binding helper [src/lib/sqlite3_helpers.c]

    The translation unit holds one C function,

<<
    int aw_sqlite3_bind_text_transient(sqlite3_stmt *stmt, int col,
                                        const char *text, int len) {
        return sqlite3_bind_text(stmt, col, text, len, SQLITE_TRANSIENT);
    }
>>

    whose body is one call into the SQLite library.  The library is
    external to the repository, so the call is kept as an uninterpreted
    event of an interaction tree, and every statement below quantifies over
    the behaviour of the library: over handlers into a state monad
    (section [Denotation]) and over arbitrary, possibly partial and
    nondeterministic, call relations with a log of the calls made
    (section [Runs]). *)

From Stdlib Require Import ZArith List String Bool Lia Morphisms.
From ITree Require Import ITree ITreeFacts Events.State Events.StateFacts Props.Leaf.
Import ListNotations.
Local Open Scope Z_scope.

(* ===================================================================== *)
(** ** C types and values *)
(* ===================================================================== *)

Module C.

(** The fragment of the C type language that the two prototypes use. *)
#[warnings="-register-all"]
Inductive ctype : Type :=
| Tvoid
| Tchar
| Tint
| Tnamed (name : string)
| Tconst (t : ctype)
| Tptr (t : ctype)
| Tfun (params : list ctype) (ret : ctype).

Record signature : Type := {
  sig_params : list ctype;
  sig_ret : ctype
}.

(** Values.  An [int] is its mathematical value; the helper computes
    nothing on its integers, so no wrap-around is involved.  A pointer is
    the integer it converts to, [NULL] being 0. *)
Definition int : Type := Z.
Definition ptr : Type := Z.
Definition NULL : ptr := 0.

Fixpoint denote (t : ctype) : Type :=
  match t with
  | Tint | Tchar => int
  | Tptr _ => ptr
  | Tconst t' => denote t'
  | Tvoid | Tnamed _ | Tfun _ _ => unit
  end.

Fixpoint arrows (ps : list ctype) (R : Type) : Type :=
  match ps with
  | [] => R
  | p :: ps' => denote p -> arrows ps' R
  end.

(** The Rocq type of a C function of signature [sg] whose body runs in
    [M]. *)
Definition fn_type (M : Type -> Type) (sg : signature) : Type :=
  arrows (sig_params sg) (M (denote (sig_ret sg))).

(** What a parameter is, by the shape of its type. *)
Inductive kind : Type := Integer | Pointer | Other.

Definition kind_of (t : ctype) : kind :=
  match t with
  | Tint => Integer
  | Tptr _ => Pointer
  | _ => Other
  end.

End C.

Import C.

(* ===================================================================== *)
(** ** The part of [sqlite3.h] the helper uses *)
(* ===================================================================== *)

(** [sqlite3_stmt *]: an opaque handle. *)
Definition sqlite3_stmt_ptr : ctype := Tptr (Tnamed "sqlite3_stmt").

(** [const char *] *)
Definition const_char_ptr : ctype := Tptr (Tconst Tchar).

(** [void ( * )(void * )], the type of the destructor argument. *)
Definition sqlite3_destructor_type : ctype := Tptr (Tfun [Tptr Tvoid] Tvoid).

(** Modelled from the spec: the macro [SQLITE_TRANSIENT] of [sqlite3.h],
    a header that is not among the sources.  The comment above the helper
    gives its value, "the sentinel pointer value (-1)", and the glossary its
    meaning, the transient lifetime policy.  [SQLITE_STATIC], the other
    sentinel of the header, is the null destructor. *)
Definition SQLITE_TRANSIENT : denote sqlite3_destructor_type := -1.
Definition SQLITE_STATIC : denote sqlite3_destructor_type := 0.

(** Modelled from the spec: the prototype of [sqlite3_bind_text], declared
    in [sqlite3.h], which is not among the sources.  The call in the helper
    fixes five arguments and an [int] result; section 6 of the spec says
    that the helper's own parameter and result types are the library's. *)
Definition sqlite3_bind_text_signature : signature :=
  {| sig_params := [sqlite3_stmt_ptr; Tint; const_char_ptr; Tint;
                    sqlite3_destructor_type];
     sig_ret := Tint |}.

(** The library call, as an event answered by the environment. *)
Variant sqlite3E : Type -> Type :=
| sqlite3_bind_text (stmt : denote sqlite3_stmt_ptr) (idx : denote Tint)
                    (text : denote const_char_ptr) (n : denote Tint)
                    (xDel : denote sqlite3_destructor_type)
  : sqlite3E (denote Tint).

(** The event has the type that the prototype denotes. *)
Definition sqlite3_bind_text_typed
  : fn_type sqlite3E sqlite3_bind_text_signature := sqlite3_bind_text.

(* ===================================================================== *)
(** ** The helper *)
(* ===================================================================== *)

(** [int aw_sqlite3_bind_text_transient(sqlite3_stmt *stmt, int col,
                                         const char *text, int len)] *)
Definition aw_sqlite3_bind_text_transient_signature : signature :=
  {| sig_params := [sqlite3_stmt_ptr; Tint; const_char_ptr; Tint];
     sig_ret := Tint |}.

(** [return sqlite3_bind_text(stmt, col, text, len, SQLITE_TRANSIENT);] *)
Definition aw_sqlite3_bind_text_transient
  : fn_type (itree sqlite3E) aw_sqlite3_bind_text_transient_signature :=
  fun stmt col text len =>
    ITree.trigger (sqlite3_bind_text stmt col text len SQLITE_TRANSIENT).

(** The caller of section 8 of the spec: it invokes the wrapped primitive
    itself and supplies the lifetime policy by hand. *)
Definition direct_bind_text_with_policy
  (policy : denote sqlite3_destructor_type)
  : fn_type (itree sqlite3E) aw_sqlite3_bind_text_transient_signature :=
  fun stmt col text len =>
    ITree.trigger (sqlite3_bind_text_typed stmt col text len policy).

(* ===================================================================== *)
(** ** Calls as data *)
(* ===================================================================== *)

(** The five actual arguments of one [sqlite3_bind_text] call. *)
Record call : Type := Call {
  c_stmt : ptr;
  c_idx : int;
  c_text : ptr;
  c_len : int;
  c_xDel : ptr
}.

Definition call_of {T} (e : sqlite3E T) : call :=
  match e with
  | sqlite3_bind_text stmt idx text n xDel => Call stmt idx text n xDel
  end.

(** The status code of the library, at the answer type of the event. *)
Definition answer {T} (e : sqlite3E T) : int -> T :=
  match e in sqlite3E T0 return int -> T0 with
  | sqlite3_bind_text _ _ _ _ _ => fun rc => rc
  end.

(** A log of library calls, each with the status code it returned. *)
Definition trace : Type := list (call * int).

(** Renaming the arguments of every call a program makes. *)
Definition rename_call (f : call -> call) : sqlite3E ~> sqlite3E :=
  fun T e =>
    match e in sqlite3E T0 return sqlite3E T0 with
    | sqlite3_bind_text stmt idx text n xDel =>
        let c := f (Call stmt idx text n xDel) in
        sqlite3_bind_text (c_stmt c) (c_idx c) (c_text c) (c_len c) (c_xDel c)
    end.

(** Changing the four arguments and keeping the destructor. *)
Definition on_arguments (f_stmt : ptr -> ptr) (f_col : int -> int)
  (f_text : ptr -> ptr) (f_len : int -> int) (c : call) : call :=
  Call (f_stmt (c_stmt c)) (f_col (c_idx c)) (f_text (c_text c))
       (f_len (c_len c)) (c_xDel c).

(* ===================================================================== *)
(** ** Running a program against a library *)
(* ===================================================================== *)

Section Runs.

(** The state the library works on (statements, their bindings, the memory
    they point into) and the library itself: [lib c s rc s'] when the call
    [c], made in state [s], can return status [rc] and leave state [s'].
    A call that does not return relates to nothing; a library that may
    answer in several ways relates to each. *)
Variable St : Type.
Variable lib : call -> St -> int -> St -> Prop.

(** [runs_in n t s tr r s']: within [n] steps the program [t], started in
    [s], returns [r] in state [s'], having made the calls [tr]. *)
Fixpoint runs_in (n : nat) {R : Type} (t : itree sqlite3E R) (s : St)
  (tr : trace) (r : R) (s' : St) {struct n} : Prop :=
  match n with
  | O => False
  | S n' =>
      match observe t with
      | RetF x => x = r /\ s' = s /\ tr = []
      | TauF t' => runs_in n' t' s tr r s'
      | VisF e k =>
          exists rc s1 tr',
            lib (call_of e) s rc s1 /\
            tr = (call_of e, rc) :: tr' /\
            runs_in n' (k (answer e rc)) s1 tr' r s'
      end
  end.

Definition runs {R : Type} (t : itree sqlite3E R) (s : St)
  (tr : trace) (r : R) (s' : St) : Prop :=
  exists n, runs_in n t s tr r s'.

(** The library is deterministic when a call in a state has at most one
    outcome. *)
Definition functional_lib : Prop :=
  forall c s rc1 s1 rc2 s2,
    lib c s rc1 s1 -> lib c s rc2 s2 -> rc1 = rc2 /\ s1 = s2.

End Runs.

Arguments runs_in {St} lib n {R} t s tr r s'.
Arguments runs {St} lib {R} t s tr r s'.
Arguments functional_lib {St} lib.

(** A library given as a partial function, and the executable counterpart
    of [runs_in] for it. *)
Definition lib_of_fun {St} (f : call -> St -> option (int * St))
  : call -> St -> int -> St -> Prop :=
  fun c s rc s' => f c s = Some (rc, s').

Fixpoint exec {St} (f : call -> St -> option (int * St)) (n : nat)
  {R : Type} (t : itree sqlite3E R) (s : St) {struct n}
  : option (trace * R * St) :=
  match n with
  | O => None
  | S n' =>
      match observe t with
      | RetF x => Some ([], x, s)
      | TauF t' => exec f n' t' s
      | VisF e k =>
          match f (call_of e) s with
          | None => None
          | Some (rc, s1) =>
              match exec f n' (k (answer e rc)) s1 with
              | None => None
              | Some (tr', r, s') => Some ((call_of e, rc) :: tr', r, s')
              end
          end
      end
  end.

(** A recording stand-in for the library, to run the helper on concrete
    arguments: it logs the call and answers 21 on a null statement handle
    and 0 otherwise. *)
Definition recorder (c : call) (log : list call) : option (int * list call) :=
  Some (if c_stmt c =? NULL then 21 else 0, c :: log).

(** A library that answers 0 or 5 as it pleases and keeps no state. *)
Definition coin (c : call) (s : unit) (rc : int) (s' : unit) : Prop :=
  rc = 0 \/ rc = 5.

(** One that never returns. *)
Definition hang (c : call) (log : list call) : option (int * list call) :=
  None.

(* ===================================================================== *)
(** ** Interpreting the call with a handler *)
(* ===================================================================== *)

Section Denotation.

(** The library as a handler: the call becomes a computation on the state
    [St] that may itself perform events of [F], or never return. *)
Variable F : Type -> Type.
Variable St : Type.
Variable h : sqlite3E ~> Monads.stateT St (itree F).

(** The outcome of a program under the handler: final state and result. *)
Definition denote_with {R} (t : itree sqlite3E R) (s : St) : itree F (St * R) :=
  interp_state h t s.

(** The wrapped primitive, invoked in state [s]. *)
Definition primitive (c : call) (s : St) : itree F (St * int) :=
  h _ (sqlite3_bind_text (c_stmt c) (c_idx c) (c_text c) (c_len c) (c_xDel c)) s.

End Denotation.

Arguments denote_with {F St} h {R} t s.
Arguments primitive {F St} h c s.

(** The handler of a library given as a partial function: a call that has
    no outcome spins. *)
Definition handler_of_fun {St} (f : call -> St -> option (int * St))
  : sqlite3E ~> Monads.stateT St (itree void1) :=
  fun T e s =>
    match f (call_of e) s with
    | Some (rc, s') => Ret (s', answer e rc)
    | None => ITree.spin
    end.

(* ===================================================================== *)
(** ** Basic facts *)
(* ===================================================================== *)

(** The helper is one call node whose continuation returns the answer. *)
Lemma observe_helper stmt col text len :
  observe (aw_sqlite3_bind_text_transient stmt col text len) =
  VisF (sqlite3_bind_text stmt col text len SQLITE_TRANSIENT) (fun rc => Ret rc).
Proof. reflexivity. Qed.

Section RunsFacts.

Context {St : Type} (lib : call -> St -> int -> St -> Prop).

Lemma runs_in_mono n {R} (t : itree sqlite3E R) s tr r s' :
  runs_in lib n t s tr r s' -> runs_in lib (S n) t s tr r s'.
Proof.
  revert t s tr. induction n as [|n IH]; intros t s tr; [intros []|].
  change (runs_in lib (S n) t s tr r s') with
    (match observe t with
     | RetF x => x = r /\ s' = s /\ tr = []
     | TauF t' => runs_in lib n t' s tr r s'
     | VisF e k =>
         exists rc s1 tr',
           lib (call_of e) s rc s1 /\ tr = (call_of e, rc) :: tr' /\
           runs_in lib n (k (answer e rc)) s1 tr' r s'
     end).
  change (runs_in lib (S (S n)) t s tr r s') with
    (match observe t with
     | RetF x => x = r /\ s' = s /\ tr = []
     | TauF t' => runs_in lib (S n) t' s tr r s'
     | VisF e k =>
         exists rc s1 tr',
           lib (call_of e) s rc s1 /\ tr = (call_of e, rc) :: tr' /\
           runs_in lib (S n) (k (answer e rc)) s1 tr' r s'
     end).
  destruct (observe t) as [x | t' | X e k].
  - exact (fun H => H).
  - apply IH.
  - intros (rc & s1 & tr' & Hl & Htr & Hk).
    exists rc, s1, tr'. repeat split; auto.
Qed.

(** Two steps decide a run of the helper: the call, then the return. *)
Lemma runs_in_helper n stmt col text len s tr rc s' :
  runs_in lib (S (S n)) (aw_sqlite3_bind_text_transient stmt col text len)
    s tr rc s' <->
  lib (Call stmt col text len SQLITE_TRANSIENT) s rc s' /\
  tr = [(Call stmt col text len SQLITE_TRANSIENT, rc)].
Proof.
  cbn. split.
  - intros (rc0 & s1 & tr' & Hl & Htr & Hrc & Hs & Hnil). subst. auto.
  - intros [Hl Htr]. exists rc, s', []. repeat split; auto.
Qed.

Lemma runs_helper stmt col text len s tr rc s' :
  runs lib (aw_sqlite3_bind_text_transient stmt col text len) s tr rc s' <->
  lib (Call stmt col text len SQLITE_TRANSIENT) s rc s' /\
  tr = [(Call stmt col text len SQLITE_TRANSIENT, rc)].
Proof.
  split.
  - intros [[|[|n]] Hn].
    + destruct Hn.
    + apply (runs_in_helper 0), runs_in_mono, Hn.
    + apply (runs_in_helper n), Hn.
  - intros H. exists 2%nat. apply (runs_in_helper 0). exact H.
Qed.

End RunsFacts.

(** [exec] computes runs of the library it is given. *)
Lemma exec_runs_in {St} (f : call -> St -> option (int * St)) n :
  forall {R} (t : itree sqlite3E R) s tr r s',
    exec f n t s = Some (tr, r, s') ->
    runs_in (lib_of_fun f) n t s tr r s'.
Proof.
  induction n as [|n IH]; intros R t s tr r s'; cbn; [discriminate|].
  destruct (observe t) as [x | t' | X e k].
  - intros [= <- <- <-]. auto.
  - apply IH.
  - destruct (f (call_of e) s) as [[rc s1]|] eqn:Hf; [|discriminate].
    destruct (exec f n (k (answer e rc)) s1) as [[[tr' r'] s2]|] eqn:Hk;
      [|discriminate].
    intros [= <- <- <-].
    exists rc, s1, tr'. repeat split; auto.
Qed.

Lemma exec_runs {St} (f : call -> St -> option (int * St)) n
  {R} (t : itree sqlite3E R) s tr r s' :
  exec f n t s = Some (tr, r, s') -> runs (lib_of_fun f) t s tr r s'.
Proof. intros H. exists n. apply exec_runs_in. exact H. Qed.

Lemma lib_of_fun_functional {St} (f : call -> St -> option (int * St)) :
  functional_lib (lib_of_fun f).
Proof.
  intros c s rc1 s1 rc2 s2 H1 H2. unfold lib_of_fun in *.
  rewrite H1 in H2. injection H2 as -> ->. auto.
Qed.

Example exec_recorder :
  exec recorder 2 (aw_sqlite3_bind_text_transient 7 1 4096 5) [] =
  Some ([(Call 7 1 4096 5 (-1), 0)], 0, [Call 7 1 4096 5 (-1)]).
Proof. reflexivity. Qed.

Example exec_recorder_null :
  exec recorder 2 (aw_sqlite3_bind_text_transient NULL 1 NULL (-1)) [] =
  Some ([(Call 0 1 0 (-1) (-1), 21)], 21, [Call 0 1 0 (-1) (-1)]).
Proof. reflexivity. Qed.

Example helper_on_coin :
  runs coin (aw_sqlite3_bind_text_transient 7 1 4096 5) tt
    [(Call 7 1 4096 5 SQLITE_TRANSIENT, 0)] 0 tt /\
  runs coin (aw_sqlite3_bind_text_transient 7 1 4096 5) tt
    [(Call 7 1 4096 5 SQLITE_TRANSIENT, 5)] 5 tt.
Proof.
  split; apply runs_helper; split; (reflexivity || (red; auto)).
Qed.

Example exec_hang :
  forall n, exec hang n (aw_sqlite3_bind_text_transient 7 1 4096 5) [] = None.
Proof. intros [|n]; reflexivity. Qed.

(** Under a handler the helper is the primitive, called with the transient
    policy. *)
Lemma denote_helper {F St} (h : sqlite3E ~> Monads.stateT St (itree F))
  stmt col text len s :
  denote_with h (aw_sqlite3_bind_text_transient stmt col text len) s ≈
  primitive h (Call stmt col text len SQLITE_TRANSIENT) s.
Proof.
  unfold denote_with, primitive, aw_sqlite3_bind_text_transient. cbn.
  apply interp_state_trigger.
Qed.

(* ===================================================================== *)
(** ** The properties of the helper *)
(* ===================================================================== *)

(** C1. Pass-through equivalence: for every statement handle, column
    index, text pointer and length, the helper is the same program as a
    caller that invokes [sqlite3_bind_text] directly with
    [SQLITE_TRANSIENT] supplied by hand, and under every implementation of
    the library, from every state, it yields the same status code and the
    same resulting state as the primitive itself. *)
Theorem bind_text_transient_refines_direct_call
  (F : Type -> Type) (St : Type)
  (h : sqlite3E ~> Monads.stateT St (itree F))
  (stmt : ptr) (col : int) (text : ptr) (len : int) (s : St) :
  aw_sqlite3_bind_text_transient stmt col text len ≅
    direct_bind_text_with_policy SQLITE_TRANSIENT stmt col text len /\
  denote_with h (aw_sqlite3_bind_text_transient stmt col text len) s ≈
    denote_with h
      (direct_bind_text_with_policy SQLITE_TRANSIENT stmt col text len) s /\
  denote_with h (aw_sqlite3_bind_text_transient stmt col text len) s ≈
    primitive h (Call stmt col text len SQLITE_TRANSIENT) s.
Proof.
  split; [reflexivity | split].
  - reflexivity.
  - apply denote_helper.
Qed.

(** C2. The integer the helper returns is the status code of the
    underlying [sqlite3_bind_text] call, unmodified: in every run the one
    status the library answered is the one returned, and the statuses the
    helper can return from a state are exactly those the library call can
    return there, so no code is translated and no error is added. *)
Theorem status_code_passed_unmodified
  (St : Type) (lib : call -> St -> int -> St -> Prop)
  (stmt : ptr) (col : int) (text : ptr) (len : int) (s : St) (rc : int) :
  (forall tr s',
      runs lib (aw_sqlite3_bind_text_transient stmt col text len) s tr rc s' ->
      List.map snd tr = [rc]) /\
  ((exists tr s',
      runs lib (aw_sqlite3_bind_text_transient stmt col text len) s tr rc s')
   <->
   (exists s', lib (Call stmt col text len SQLITE_TRANSIENT) s rc s')).
Proof.
  split.
  - intros tr s' H. apply runs_helper in H as [_ ->]. reflexivity.
  - split.
    + intros (tr & s' & H). apply runs_helper in H as [H _]. eauto.
    + intros [s' H].
      exists [(Call stmt col text len SQLITE_TRANSIENT, rc)], s'.
      apply runs_helper. auto.
Qed.

(** C3. On every invocation the helper makes the library call, and the
    fifth argument of that call is [SQLITE_TRANSIENT], whatever the four
    arguments are: every outcome of
    [sqlite3_bind_text(stmt, col, text, len, SQLITE_TRANSIENT)] is an
    outcome of the helper and the helper has no other, and the destructor
    arguments a run logs are the one sentinel [SQLITE_TRANSIENT], never
    [SQLITE_STATIC].  What the sentinel tells the library (copy the text
    now, do not retain the pointer) is the library's contract. *)
Theorem fifth_argument_is_transient
  (St : Type) (lib : call -> St -> int -> St -> Prop)
  (stmt : ptr) (col : int) (text : ptr) (len : int) (s : St) :
  (forall rc s',
      lib (Call stmt col text len SQLITE_TRANSIENT) s rc s' <->
      exists tr,
        runs lib (aw_sqlite3_bind_text_transient stmt col text len)
          s tr rc s') /\
  (forall tr rc s',
      runs lib (aw_sqlite3_bind_text_transient stmt col text len) s tr rc s' ->
      List.map (fun x => c_xDel (fst x)) tr = [SQLITE_TRANSIENT] /\
      forall c rc0, In (c, rc0) tr -> c_xDel c <> SQLITE_STATIC).
Proof.
  split.
  - intros rc s'. split.
    + intros H. exists [(Call stmt col text len SQLITE_TRANSIENT, rc)].
      apply runs_helper. auto.
    + intros [tr H]. apply runs_helper in H as [H _]. exact H.
  - intros tr rc s' H. apply runs_helper in H as [_ ->]. split.
    + reflexivity.
    + intros c rc0 [Hin | []]. injection Hin as <- _. discriminate.
Qed.

(** C4. The four arguments reach the library call unchanged and the
    helper has no effect of its own: the runs of the helper are exactly
    the outcomes of the one call
    [sqlite3_bind_text(stmt, col, text, len, SQLITE_TRANSIENT)], logged
    once; whatever part of the state that call leaves alone, the helper
    leaves alone; and run against a library that is a partial function,
    the helper computes the call's status and state, or nothing when the
    call does not return. *)
Theorem arguments_passed_through_single_call
  (St : Type) (lib : call -> St -> int -> St -> Prop)
  (stmt : ptr) (col : int) (text : ptr) (len : int) (s : St) :
  (forall tr rc s',
      runs lib (aw_sqlite3_bind_text_transient stmt col text len) s tr rc s'
      <->
      lib (Call stmt col text len SQLITE_TRANSIENT) s rc s' /\
      tr = [(Call stmt col text len SQLITE_TRANSIENT, rc)]) /\
  (forall (A : Type) (obs : St -> A),
      (forall rc s1,
          lib (Call stmt col text len SQLITE_TRANSIENT) s rc s1 ->
          obs s1 = obs s) ->
      forall tr rc s',
        runs lib (aw_sqlite3_bind_text_transient stmt col text len)
          s tr rc s' ->
        obs s' = obs s) /\
  (forall (f : call -> St -> option (int * St)) (n : nat),
      exec f (S (S n)) (aw_sqlite3_bind_text_transient stmt col text len) s =
      match f (Call stmt col text len SQLITE_TRANSIENT) s with
      | Some (rc, s1) =>
          Some ([(Call stmt col text len SQLITE_TRANSIENT, rc)], rc, s1)
      | None => None
      end).
Proof.
  split; [|split].
  - intros tr rc s'. apply runs_helper.
  - intros A obs Hframe tr rc s' H.
    apply runs_helper in H as [H _]. exact (Hframe rc s' H).
  - intros f n. cbn.
    destruct (f (Call stmt col text len SQLITE_TRANSIENT) s) as [[rc s1]|];
      reflexivity.
Qed.

(** C5. No validation and no recovery: for every input, a null text
    pointer and any length included, the helper delegates.  It treats its
    arguments as opaque (applying any functions to the four arguments
    before the helper, or to the arguments of the call it makes, gives the
    same program), and its runs are exactly the outcomes of the library
    call, so nothing is rejected and nothing is recovered from. *)
Theorem no_validation_unconditional_delegation
  (St : Type) (lib : call -> St -> int -> St -> Prop)
  (stmt : ptr) (col : int) (text : ptr) (len : int) (s : St) :
  (forall f_stmt f_col f_text f_len,
      translate (rename_call (on_arguments f_stmt f_col f_text f_len))
        (aw_sqlite3_bind_text_transient stmt col text len) ≅
      aw_sqlite3_bind_text_transient
        (f_stmt stmt) (f_col col) (f_text text) (f_len len)) /\
  (forall tr rc s',
      runs lib (aw_sqlite3_bind_text_transient stmt col text len) s tr rc s'
      <->
      lib (Call stmt col text len SQLITE_TRANSIENT) s rc s' /\
      tr = [(Call stmt col text len SQLITE_TRANSIENT, rc)]) /\
  (forall rc s',
      lib (Call stmt col NULL len SQLITE_TRANSIENT) s rc s' ->
      runs lib (aw_sqlite3_bind_text_transient stmt col NULL len) s
        [(Call stmt col NULL len SQLITE_TRANSIENT, rc)] rc s').
Proof.
  split; [|split].
  - intros f_stmt f_col f_text f_len.
    unfold aw_sqlite3_bind_text_transient, ITree.trigger.
    rewrite translate_vis. cbn.
    apply eqit_Vis. intros rc. apply translate_ret.
  - intros tr rc s'. apply runs_helper.
  - intros rc s' H. apply runs_helper. auto.
Qed.

(** C6. The interface of the helper is its signature: a statement handle,
    a column index, a text pointer and a length in, an [int] status code
    out.  These are the first four parameter types and the result type of
    the wrapped primitive, and at these types the helper is the primitive
    applied to the helper's own parameters. *)
Theorem interface_is_the_signature :
  sig_params aw_sqlite3_bind_text_transient_signature =
    [sqlite3_stmt_ptr; Tint; const_char_ptr; Tint] /\
  List.map kind_of (sig_params aw_sqlite3_bind_text_transient_signature) =
    [Pointer; Integer; Pointer; Integer] /\
  sig_ret aw_sqlite3_bind_text_transient_signature = Tint /\
  sig_params sqlite3_bind_text_signature =
    sig_params aw_sqlite3_bind_text_transient_signature ++
    [sqlite3_destructor_type] /\
  sig_ret aw_sqlite3_bind_text_transient_signature =
    sig_ret sqlite3_bind_text_signature /\
  (forall stmt col text len,
      aw_sqlite3_bind_text_transient stmt col text len =
      ITree.trigger
        (sqlite3_bind_text_typed stmt col text len SQLITE_TRANSIENT)).
Proof. repeat split. Qed.

(** C8. Determinism: the helper is exactly as deterministic as the one
    call it makes.  Two invocations with equal arguments on equal states
    always agree on the status code, the resulting state and the calls
    made if and only if
    [sqlite3_bind_text(stmt, col, text, len, SQLITE_TRANSIENT)] has at
    most one outcome in that state; no other call of the library needs to
    be deterministic.  In particular they agree when the library is a
    function of the five arguments and the state. *)
Theorem helper_adds_no_nondeterminism
  (St : Type) (lib : call -> St -> int -> St -> Prop)
  (stmt : ptr) (col : int) (text : ptr) (len : int) (s : St) :
  ((forall rc1 s1 rc2 s2,
       lib (Call stmt col text len SQLITE_TRANSIENT) s rc1 s1 ->
       lib (Call stmt col text len SQLITE_TRANSIENT) s rc2 s2 ->
       rc1 = rc2 /\ s1 = s2)
   <->
   (forall stmt' col' text' len' s0 tr1 tr2 rc1 rc2 s1' s2',
       stmt' = stmt -> col' = col -> text' = text -> len' = len -> s0 = s ->
       runs lib (aw_sqlite3_bind_text_transient stmt col text len)
         s tr1 rc1 s1' ->
       runs lib (aw_sqlite3_bind_text_transient stmt' col' text' len')
         s0 tr2 rc2 s2' ->
       rc1 = rc2 /\ s1' = s2' /\ tr1 = tr2)) /\
  (functional_lib lib ->
   forall tr1 tr2 rc1 rc2 s1' s2',
     runs lib (aw_sqlite3_bind_text_transient stmt col text len)
       s tr1 rc1 s1' ->
     runs lib (aw_sqlite3_bind_text_transient stmt col text len)
       s tr2 rc2 s2' ->
     rc1 = rc2 /\ s1' = s2' /\ tr1 = tr2).
Proof.
  split; [split|].
  - intros Hdet stmt' col' text' len' s0 tr1 tr2 rc1 rc2 s1' s2'
      -> -> -> -> -> H1 H2.
    apply runs_helper in H1 as [H1 ->].
    apply runs_helper in H2 as [H2 ->].
    destruct (Hdet _ _ _ _ H1 H2) as [-> ->]. auto.
  - intros Hdet rc1 s1 rc2 s2 H1 H2.
    destruct (Hdet stmt col text len s
                [(Call stmt col text len SQLITE_TRANSIENT, rc1)]
                [(Call stmt col text len SQLITE_TRANSIENT, rc2)]
                rc1 rc2 s1 s2) as (Hrc & Hs & _);
      try reflexivity; try (apply runs_helper; auto).
    auto.
  - intros Hfun tr1 tr2 rc1 rc2 s1' s2' H1 H2.
    apply runs_helper in H1 as [H1 ->].
    apply runs_helper in H2 as [H2 ->].
    destruct (Hfun _ _ _ _ _ _ H1 H2) as [-> ->]. auto.
Qed.

(** C9. Termination: the helper is a single call in tail position, with no
    loop and no recursion, and it returns whenever the wrapped call
    returns: under every implementation of the library, each outcome of
    the call is an outcome of the helper, reached in two steps (the call,
    then the return of its result). *)
Theorem helper_terminates_when_call_returns
  (St : Type) (h : sqlite3E ~> Monads.stateT St (itree void1))
  (stmt : ptr) (col : int) (text : ptr) (len : int) (s : St)
  (x : St * int) :
  Leaf x (primitive h (Call stmt col text len SQLITE_TRANSIENT) s) ->
  Leaf x (denote_with h (aw_sqlite3_bind_text_transient stmt col text len) s)
  /\
  observe (aw_sqlite3_bind_text_transient stmt col text len) =
    VisF (sqlite3_bind_text stmt col text len SQLITE_TRANSIENT)
         (fun rc => Ret rc)
  /\
  (forall (lib : call -> St -> int -> St -> Prop) rc s',
      lib (Call stmt col text len SQLITE_TRANSIENT) s rc s' ->
      runs_in lib 2 (aw_sqlite3_bind_text_transient stmt col text len) s
        [(Call stmt col text len SQLITE_TRANSIENT, rc)] rc s').
Proof.
  intros Hx. split; [|split].
  - eapply Leaf_eutt; [reflexivity | apply denote_helper | exact Hx].
  - apply observe_helper.
  - intros lib rc s' H. apply (runs_in_helper lib 0). auto.
Qed.

Lemma helper_terminates_when_call_returns_witness :
  Leaf ([Call 7 1 4096 5 (-1)], 0)
    (primitive (handler_of_fun recorder)
       (Call 7 1 4096 5 SQLITE_TRANSIENT) []) /\
  Leaf ([Call 7 1 4096 5 (-1)], 0)
    (denote_with (handler_of_fun recorder)
       (aw_sqlite3_bind_text_transient 7 1 4096 5) []).
Proof.
  split.
  - apply Leaf_Ret.
  - apply (helper_terminates_when_call_returns (list call)
             (handler_of_fun recorder) 7 1 4096 5 []
             ([Call 7 1 4096 5 (-1)], 0)).
    apply Leaf_Ret.
Defined.

(* ===================================================================== *)
(** ** The helper inside a caller *)
(* ===================================================================== *)

Section InContext.

Context {St : Type} (lib : call -> St -> int -> St -> Prop).

(** Returning a value and continuing is continuing. *)
Lemma runs_in_bind_ret n {A R} (a : A) (k : A -> itree sqlite3E R)
  s tr r s' :
  runs_in lib n (ITree.bind (Ret a) k) s tr r s' <->
  runs_in lib n (k a) s tr r s'.
Proof. destruct n; reflexivity. Qed.

(** Calling and continuing is continuing after the call. *)
Lemma runs_in_bind_vis n {T A R} (e : sqlite3E T) (k0 : T -> itree sqlite3E A)
  (k : A -> itree sqlite3E R) s tr r s' :
  runs_in lib (S n) (ITree.bind (Vis e k0) k) s tr r s' <->
  exists rc s1 tr',
    lib (call_of e) s rc s1 /\
    tr = (call_of e, rc) :: tr' /\
    runs_in lib n (ITree.bind (k0 (answer e rc)) k) s1 tr' r s'.
Proof. reflexivity. Qed.

(** A direct call with any policy, followed by the rest of the caller. *)
Lemma runs_bind_direct {R} policy stmt col text len
  (k : int -> itree sqlite3E R) s tr r s' :
  runs lib
    (ITree.bind (direct_bind_text_with_policy policy stmt col text len) k)
    s tr r s' <->
  exists rc s1 tr',
    lib (Call stmt col text len policy) s rc s1 /\
    tr = (Call stmt col text len policy, rc) :: tr' /\
    runs lib (k rc) s1 tr' r s'.
Proof.
  split.
  - intros [[|n] Hn]; [destruct Hn|].
    apply runs_in_bind_vis in Hn as (rc & s1 & tr' & Hl & Htr & Hk).
    exists rc, s1, tr'. repeat split; auto.
    exists n. apply (runs_in_bind_ret n rc k) in Hk. exact Hk.
  - intros (rc & s1 & tr' & Hl & Htr & [n Hk]).
    exists (S n). apply runs_in_bind_vis.
    exists rc, s1, tr'. repeat split; auto.
    apply (runs_in_bind_ret n rc k). exact Hk.
Qed.

Lemma runs_ret {R} (x : R) s tr r s' :
  runs lib (Ret x) s tr r s' <-> x = r /\ s' = s /\ tr = [].
Proof.
  split.
  - intros [[|n] Hn]; [destruct Hn | exact Hn].
  - intros H. exists 1%nat. exact H.
Qed.

Lemma runs_direct policy stmt col text len s tr rc s' :
  runs lib (direct_bind_text_with_policy policy stmt col text len)
    s tr rc s' <->
  lib (Call stmt col text len policy) s rc s' /\
  tr = [(Call stmt col text len policy, rc)].
Proof.
  split.
  - intros [[|[|n]] Hn].
    + destruct Hn.
    + cbn in Hn. destruct Hn as (rc0 & s1 & tr' & _ & _ & []).
    + cbn in Hn.
      destruct Hn as (rc0 & s1 & tr' & Hl & Htr & Hrc & Hs & Hnil).
      subst. auto.
  - intros [Hl ->]. exists 2%nat. cbn.
    exists rc, s', []. repeat split; auto.
Qed.

End InContext.

(** X1. The helper inside any caller: whatever the caller does with the
    status, a run of "call the helper, then continue with [k]" is the
    library call [sqlite3_bind_text(stmt, col, text, len,
    SQLITE_TRANSIENT)] followed by a run of [k] on the status it
    answered, from the state it left; the log is that one call and then
    the calls of [k].  The same holds under every handler. *)
Theorem helper_then_continuation
  (St : Type) (lib : call -> St -> int -> St -> Prop)
  (F : Type -> Type) (h : sqlite3E ~> Monads.stateT St (itree F))
  (R : Type) (stmt : ptr) (col : int) (text : ptr) (len : int)
  (k : int -> itree sqlite3E R) (s : St) :
  (forall tr r s',
      runs lib
        (ITree.bind (aw_sqlite3_bind_text_transient stmt col text len) k)
        s tr r s' <->
      exists rc s1 tr',
        lib (Call stmt col text len SQLITE_TRANSIENT) s rc s1 /\
        tr = (Call stmt col text len SQLITE_TRANSIENT, rc) :: tr' /\
        runs lib (k rc) s1 tr' r s') /\
  denote_with h
    (ITree.bind (aw_sqlite3_bind_text_transient stmt col text len) k) s ≈
  ITree.bind (primitive h (Call stmt col text len SQLITE_TRANSIENT) s)
    (fun p => denote_with h (k (snd p)) (fst p)).
Proof.
  split.
  - intros tr r s'.
    apply (runs_bind_direct lib SQLITE_TRANSIENT stmt col text len k).
  - unfold denote_with. rewrite interp_state_bind.
    apply eqit_bind; [|intros p; reflexivity].
    apply (denote_helper h).
Qed.

(** X2. Two invocations in a row (binding two parameters) make the two
    library calls in program order, the second from the state the first
    left, both with [SQLITE_TRANSIENT]; the first status does not stop or
    change the second call, and both statuses reach the caller. *)
Theorem two_invocations_in_order
  (St : Type) (lib : call -> St -> int -> St -> Prop)
  (stmt1 : ptr) (col1 : int) (text1 : ptr) (len1 : int)
  (stmt2 : ptr) (col2 : int) (text2 : ptr) (len2 : int)
  (s : St) (tr : trace) (rc1 rc2 : int) (s' : St) :
  runs lib
    (ITree.bind (aw_sqlite3_bind_text_transient stmt1 col1 text1 len1)
       (fun r1 =>
          ITree.bind (aw_sqlite3_bind_text_transient stmt2 col2 text2 len2)
            (fun r2 => Ret (r1, r2))))
    s tr (rc1, rc2) s' <->
  exists s1,
    lib (Call stmt1 col1 text1 len1 SQLITE_TRANSIENT) s rc1 s1 /\
    lib (Call stmt2 col2 text2 len2 SQLITE_TRANSIENT) s1 rc2 s' /\
    tr = [(Call stmt1 col1 text1 len1 SQLITE_TRANSIENT, rc1);
          (Call stmt2 col2 text2 len2 SQLITE_TRANSIENT, rc2)].
Proof.
  split.
  - intros H.
    apply (runs_bind_direct lib SQLITE_TRANSIENT) in H
      as (r1 & s1 & tr1 & Hl1 & -> & H).
    apply (runs_bind_direct lib SQLITE_TRANSIENT) in H
      as (r2 & s2 & tr2 & Hl2 & -> & H).
    apply runs_ret in H as (Hr & -> & ->).
    injection Hr as -> ->.
    exists s1. auto.
  - intros (s1 & Hl1 & Hl2 & ->).
    apply (runs_bind_direct lib SQLITE_TRANSIENT).
    exists rc1, s1, [(Call stmt2 col2 text2 len2 SQLITE_TRANSIENT, rc2)].
    repeat split; auto.
    apply (runs_bind_direct lib SQLITE_TRANSIENT).
    exists rc2, s', []. repeat split; auto.
    apply runs_ret. auto.
Qed.

(** X3. The policy cannot be traded: a caller that invokes
    [sqlite3_bind_text] directly with the policy [p] behaves as the helper
    under every library exactly when [p] is [SQLITE_TRANSIENT].  With
    [SQLITE_STATIC], or a destructor of the caller's, some library tells
    the two apart. *)
Theorem only_the_transient_call_is_equivalent
  (p : ptr) (stmt : ptr) (col : int) (text : ptr) (len : int) :
  (forall (St : Type) (lib : call -> St -> int -> St -> Prop) s tr rc s',
      runs lib (direct_bind_text_with_policy p stmt col text len) s tr rc s'
      <->
      runs lib (aw_sqlite3_bind_text_transient stmt col text len) s tr rc s')
  <-> p = SQLITE_TRANSIENT.
Proof.
  split.
  - intros H.
    assert (Hrun : runs (lib_of_fun recorder)
                     (aw_sqlite3_bind_text_transient stmt col text len) []
                     [(Call stmt col text len SQLITE_TRANSIENT,
                       if stmt =? NULL then 21 else 0)]
                     (if stmt =? NULL then 21 else 0)
                     [Call stmt col text len SQLITE_TRANSIENT]).
    { apply runs_helper. split; reflexivity. }
    apply H in Hrun. apply runs_direct in Hrun as [_ Htr].
    injection Htr as Hp. symmetry. exact Hp.
  - intros -> St lib s tr rc s'.
    rewrite runs_direct, runs_helper. reflexivity.
Qed.
